(** * PyFishPack: the placeholder extension module [_dummy.c]

    A shallow embedding of [src/PyFishPack/_dummy.c] and of the part of the
    CPython C API ([Python.h]) the file is written against, followed by the
    properties of the module: what [dummy] returns, what the initialiser
    builds, how failures travel, and how the returned reference is counted. *)

From stdpp Require Import base gmap list strings.
From Stdlib Require Import ZArith Ascii String List Lia.
Import ListNotations.

Open Scope string_scope.
Open Scope Z_scope.

(** ** Pointers and code addresses *)

(** A value of type [PyObject*]: the null pointer, the address of the
    statically allocated singleton [_Py_NoneStruct], or the address of an
    object on the interpreter's heap. *)
Inductive PyObject : Type :=
  | NULL
  | NoneStruct
  | Heap (a : nat).

(** [#define Py_None (&_Py_NoneStruct)] *)
Definition Py_None : PyObject := NoneStruct.

(** A function pointer of type [PyCFunction] is the address of one of the
    functions of that signature the translation unit defines; the file has
    one.  Likewise for the nullary initialisers the loader resolves. *)
Inductive PyCFunction : Type := addr_dummy_function.
Inductive initfunc : Type := addr_PyInit__dummy.

(** ** The structures of [Python.h] the file fills in *)

(** [#define METH_VARARGS 0x0001] *)
Definition METH_VARARGS : Z := 1.

Record PyMethodDef : Type := {
  ml_name  : option string;       (* const char*, [None] is NULL *)
  ml_meth  : option PyCFunction;
  ml_flags : Z;
  ml_doc   : option string
}.

(** [PyModuleDef_HEAD_INIT]: the zeroed [PyModuleDef_Base]. *)
Inductive PyModuleDef_Base : Type := PyModuleDef_HEAD_INIT.

(** The members after [m_methods] ([m_slots], [m_traverse], [m_clear],
    [m_free]) are left to the aggregate initialiser, which zeroes them; they
    take no part in single-phase initialisation and are not represented. *)
Record PyModuleDef : Type := {
  m_base    : PyModuleDef_Base;
  m_name    : string;
  m_doc     : option string;
  m_size    : Z;
  m_methods : list PyMethodDef    (* array closed by a NULL-named entry *)
}.

(** ** The interpreter state *)

Inductive object : Type :=
  | PyUnicode (s : string)
  | PyLong (z : Z)
  | PyTuple (items : list PyObject)
  | PyModule (md_def : PyModuleDef) (md_dict : list (string * PyObject))
  | PyCFunctionObject (m_ml : PyMethodDef) (m_self : PyObject).

Inductive exception : Type :=
  | MemoryError
  | TypeError (msg : string)
  | AttributeError (msg : string)
  | ImportError (msg : string).

(** Calls into the host API made by the extension, in order. *)
Inductive api_call : Type :=
  | Call_PyModule_Create (name : string).

(** The part of the interpreter the module can see or reach.

    - [immortal_none]: whether the build treats [None] as immortal, so that
      [Py_INCREF] and [Py_DECREF] leave its count alone (CPython 3.12 and
      later); on older builds the count is an ordinary one.
    - [none_refcnt]: [_Py_NoneStruct.ob_refcnt].  It is a [Py_ssize_t]; the
      model keeps it in [Z] and does not represent overflow.
    - [heap]: the dynamically allocated objects, addressed by position.
      Reference counts of heap objects are not tracked and heap objects are
      never freed.
    - [avail]: how many more objects the allocator can hand out.
    - [curexc]: the thread's error indicator.
    - [sys_modules]: the loader's registry of imported modules.
    - [trace]: the host API calls the extension has made so far. *)
Record interp : Type := {
  immortal_none : bool;
  none_refcnt   : Z;
  heap          : list object;
  avail         : nat;
  curexc        : option exception;
  sys_modules   : gmap string PyObject;
  trace         : list api_call
}.

Definition set_none_refcnt (n : Z) (st : interp) : interp :=
  {| immortal_none := immortal_none st; none_refcnt := n; heap := heap st;
     avail := avail st; curexc := curexc st; sys_modules := sys_modules st;
     trace := trace st |}.

Definition set_heap (h : list object) (st : interp) : interp :=
  {| immortal_none := immortal_none st; none_refcnt := none_refcnt st;
     heap := h; avail := avail st; curexc := curexc st;
     sys_modules := sys_modules st; trace := trace st |}.

Definition set_avail (n : nat) (st : interp) : interp :=
  {| immortal_none := immortal_none st; none_refcnt := none_refcnt st;
     heap := heap st; avail := n; curexc := curexc st;
     sys_modules := sys_modules st; trace := trace st |}.

Definition set_curexc (e : option exception) (st : interp) : interp :=
  {| immortal_none := immortal_none st; none_refcnt := none_refcnt st;
     heap := heap st; avail := avail st; curexc := e;
     sys_modules := sys_modules st; trace := trace st |}.

Definition set_sys_modules (m : gmap string PyObject) (st : interp) : interp :=
  {| immortal_none := immortal_none st; none_refcnt := none_refcnt st;
     heap := heap st; avail := avail st; curexc := curexc st;
     sys_modules := m; trace := trace st |}.

Definition log_call (c : api_call) (st : interp) : interp :=
  {| immortal_none := immortal_none st; none_refcnt := none_refcnt st;
     heap := heap st; avail := avail st; curexc := curexc st;
     sys_modules := sys_modules st; trace := trace st ++ [c] |}.

(** What running statements ends in: the interpreter goes on in a new
    state, an exception is on its way up, or the process has been killed by
    [Py_FatalError]. *)
Inductive outcome : Type :=
  | Running (st : interp)
  | Raised (st : interp)
  | Aborted (msg : string).

(** ** Reference counting *)

(** [Py_INCREF(op)].  Only the count of [None] is represented; on a heap
    object the operation leaves the modelled state alone, and NULL is never
    passed. *)
Definition Py_INCREF (op : PyObject) (st : interp) : interp :=
  match op with
  | NoneStruct =>
      if immortal_none st then st
      else set_none_refcnt (none_refcnt st + 1) st
  | _ => st
  end.

(** [Py_DECREF(op)]: [if (--op->ob_refcnt == 0) _Py_Dealloc(op)], skipped
    altogether for an immortal object; the deallocator of [None] is
    [Py_FatalError("deallocating None")]. *)
Definition Py_DECREF (op : PyObject) (st : interp) : outcome :=
  match op with
  | NoneStruct =>
      if immortal_none st then Running st
      else if none_refcnt st - 1 =? 0 then Aborted "deallocating None"
      else Running (set_none_refcnt (none_refcnt st - 1) st)
  | _ => Running st
  end.

(** [Py_RETURN_NONE]: what the calling convention asks of a function that
    returns [None], namely a new reference. *)
Definition Py_RETURN_NONE (st : interp) : PyObject * interp :=
  (Py_None, Py_INCREF Py_None st).

(** ** Host primitives: allocation and module construction *)

(** Allocating one object: fails when the allocator is exhausted, else the
    object is placed at the next free address. *)
Definition alloc (o : object) (st : interp) : option (nat * interp) :=
  match avail st with
  | O => None
  | S n => Some (length (heap st), set_heap (heap st ++ [o]) (set_avail n st))
  end.

(** Dictionary store: an existing key keeps its position, a new key goes
    last. *)
Fixpoint dict_set (k : string) (v : PyObject) (d : list (string * PyObject))
  : list (string * PyObject) :=
  match d with
  | [] => [(k, v)]
  | (k', v') :: d' =>
      if String.eqb k k' then (k, v) :: d' else (k', v') :: dict_set k v d'
  end.

Fixpoint dict_get (k : string) (d : list (string * PyObject)) : option PyObject :=
  match d with
  | [] => None
  | (k', v') :: d' => if String.eqb k k' then Some v' else dict_get k d'
  end.

(** The attributes every new module object starts with. *)
Definition module_init_dict (name doc : PyObject) : list (string * PyObject) :=
  [ ("__name__", name); ("__doc__", doc); ("__package__", Py_None);
    ("__loader__", Py_None); ("__spec__", Py_None) ].

(** Storing an attribute on the module at address [m]. *)
Definition module_setattr (m : nat) (k : string) (v : PyObject) (st : interp)
  : interp :=
  set_heap
    (alter (fun o => match o with
                     | PyModule def d => PyModule def (dict_set k v d)
                     | _ => o
                     end) m (heap st)) st.

(** [PyModule_AddFunctions]: one built-in function object per entry of the
    method table, bound to the module, up to the entry whose name is NULL. *)
Fixpoint add_methods (m : nat) (mls : list PyMethodDef) (st : interp)
  : option interp :=
  match mls with
  | [] => Some st
  | ml :: rest =>
      match ml_name ml with
      | None => Some st
      | Some name =>
          match alloc (PyCFunctionObject ml (Heap m)) st with
          | None => None
          | Some (f, st1) => add_methods m rest (module_setattr m name (Heap f) st1)
          end
      end
  end.

(** The docstring object of a new module: [None] when [m_doc] is NULL. *)
Definition module_doc (doc : option string) (st : interp)
  : option (PyObject * interp) :=
  match doc with
  | None => Some (Py_None, Py_INCREF Py_None st)
  | Some d =>
      match alloc (PyUnicode d) st with
      | None => None
      | Some (a, st1) => Some (Heap a, st1)
      end
  end.

(** The successful path of module construction; [None] when the allocator
    gives out on the way. *)
Definition module_create (def : PyModuleDef) (st : interp)
  : option (nat * interp) :=
  match alloc (PyUnicode (m_name def)) st with
  | None => None
  | Some (n, st1) =>
      match module_doc (m_doc def) st1 with
      | None => None
      | Some (doc, st2) =>
          let st3 := Nat.iter 3 (Py_INCREF Py_None) st2 in
          match alloc (PyModule def (module_init_dict (Heap n) doc)) st3 with
          | None => None
          | Some (m, st4) =>
              match add_methods m (m_methods def) st4 with
              | None => None
              | Some st5 => Some (m, st5)
              end
          end
      end
  end.

(** [PyModule_Create(def)]: the new module, or NULL with [MemoryError] set
    and everything the attempt had allocated released again. *)
Definition PyModule_Create (def : PyModuleDef) (st : interp)
  : PyObject * interp :=
  let st0 := log_call (Call_PyModule_Create (m_name def)) st in
  match module_create def st0 with
  | Some (m, st') => (Heap m, st')
  | None => (NULL, set_curexc (Some MemoryError) st0)
  end.

(** ** The translation unit [_dummy.c] *)

(** [static PyObject* dummy_function(PyObject* self, PyObject* args)
     { return Py_None; }] *)
Definition dummy_function (self args : PyObject) (st : interp)
  : PyObject * interp :=
  (Py_None, st).

(** [static PyMethodDef DummyMethods[]] *)
Definition DummyMethods : list PyMethodDef :=
  [ {| ml_name := Some "dummy"; ml_meth := Some addr_dummy_function;
       ml_flags := METH_VARARGS; ml_doc := Some "Dummy function" |};
    {| ml_name := None; ml_meth := None; ml_flags := 0; ml_doc := None |} ].

(** [static struct PyModuleDef dummymodule] *)
Definition dummymodule : PyModuleDef :=
  {| m_base := PyModuleDef_HEAD_INIT;
     m_name := "_dummy";
     m_doc := None;
     m_size := -1;
     m_methods := DummyMethods |}.

(** [PyMODINIT_FUNC PyInit__dummy(void)
     { return PyModule_Create(&dummymodule); }] *)
Definition PyInit__dummy (st : interp) : PyObject * interp :=
  PyModule_Create dummymodule st.

(** Calling through a function pointer: the code it is the address of. *)
Definition call_PyCFunction (f : PyCFunction)
  : PyObject -> PyObject -> interp -> PyObject * interp :=
  match f with
  | addr_dummy_function => dummy_function
  end.

Definition call_initfunc (f : initfunc) : interp -> PyObject * interp :=
  match f with
  | addr_PyInit__dummy => PyInit__dummy
  end.

(** ** Host primitives: attribute lookup and calls *)

(** [PyObject_GetAttrString] on a module. *)
Definition module_getattr (m : PyObject) (k : string) (st : interp)
  : PyObject * interp :=
  match m with
  | Heap a =>
      match heap st !! a with
      | Some (PyModule _ d) =>
          match dict_get k d with
          | Some v => (v, st)
          | None => (NULL, set_curexc (Some (AttributeError k)) st)
          end
      | _ => (NULL, set_curexc (Some (AttributeError k)) st)
      end
  | _ => (NULL, set_curexc (Some (AttributeError k)) st)
  end.

(** Calling an object with a tuple of positional arguments and no keyword
    arguments.  A built-in function flagged [METH_VARARGS] is entered as
    [meth(self, args)]; the other calling conventions are not represented. *)
Definition PyObject_CallObject (callable args : PyObject) (st : interp)
  : PyObject * interp :=
  match callable with
  | Heap a =>
      match heap st !! a with
      | Some (PyCFunctionObject ml self) =>
          match ml_meth ml with
          | Some f =>
              if ml_flags ml =? METH_VARARGS then call_PyCFunction f self args st
              else (NULL, set_curexc (Some (TypeError "bad call flags")) st)
          | None => (NULL, set_curexc (Some (TypeError "bad call flags")) st)
          end
      | _ => (NULL, set_curexc (Some (TypeError "object is not callable")) st)
      end
  | _ => (NULL, set_curexc (Some (TypeError "object is not callable")) st)
  end.

(** The expression [m.k( *args )]. *)
Definition call_method (m : PyObject) (k : string) (args : PyObject)
  (st : interp) : PyObject * interp :=
  match module_getattr m k st with
  | (NULL, st1) => (NULL, st1)
  | (f, st1) => PyObject_CallObject f args st1
  end.

(** The expression statement [m.k( *args )]: the value is computed and then
    dropped, that is, the reference the call handed back is released. *)
Definition expr_stmt (m : PyObject) (k : string) (args : PyObject)
  (st : interp) : outcome :=
  match call_method m k args st with
  | (NULL, st1) => Raised st1
  | (r, st1) => Py_DECREF r st1
  end.

(** The same statement [n] times in a row, as far as it gets. *)
Fixpoint repeat_stmt (n : nat) (m : PyObject) (k : string) (args : PyObject)
  (st : interp) : outcome :=
  match n with
  | O => Running st
  | S n' =>
      match expr_stmt m k args st with
      | Running st1 => repeat_stmt n' m k args st1
      | o => o
      end
  end.

(** A run of calls [m.k( *args )], one per argument tuple, the results
    being kept: the values returned, in order, and the state after the last
    call.  A call that raises ends the run. *)
Fixpoint call_all (m : PyObject) (k : string) (argss : list PyObject)
  (st : interp) : list PyObject * interp :=
  match argss with
  | [] => ([], st)
  | args :: rest =>
      match call_method m k args st with
      | (NULL, st1) => ([NULL], st1)
      | (r, st1) =>
          let '(rs, st2) := call_all m k rest st1 in (r :: rs, st2)
      end
  end.

(** ** The shared object and the loader *)

Inductive linkage : Type := Internal | External.

Inductive definition : Type :=
  | Function_PyCFunction (f : PyCFunction)
  | Function_init (f : initfunc)
  | Data_methods (t : list PyMethodDef)
  | Data_moduledef (d : PyModuleDef).

(** The file-scope definitions of [_dummy.c]: [static] gives internal
    linkage, [PyMODINIT_FUNC] an exported function. *)
Definition translation_unit : list (string * linkage * definition) :=
  [ ("dummy_function", Internal, Function_PyCFunction addr_dummy_function);
    ("DummyMethods", Internal, Data_methods DummyMethods);
    ("dummymodule", Internal, Data_moduledef dummymodule);
    ("PyInit__dummy", External, Function_init addr_PyInit__dummy) ].

(** The names the shared object exports. *)
Definition exported_symbols : list string :=
  map (fun e => fst (fst e))
      (filter (fun e => match snd (fst e) with External => true | Internal => false end)
              translation_unit).

(** [dlsym]: resolving an exported name to the initialiser it names. *)
Fixpoint lookup_init (name : string) (tu : list (string * linkage * definition))
  : option initfunc :=
  match tu with
  | [] => None
  | (n, External, Function_init f) :: tu' =>
      if String.eqb name n then Some f else lookup_init name tu'
  | _ :: tu' => lookup_init name tu'
  end.

Definition dlsym (name : string) : option initfunc :=
  lookup_init name translation_unit.

(** The entry point the loader looks for when asked for module [name]. *)
Definition init_symbol (name : string) : string := "PyInit_" ++ name.

(** Importing an extension module by name: a module already in
    [sys.modules] is handed back as it is; otherwise the initialiser is
    resolved and run, and the module it returns is entered in
    [sys.modules].  Only this cache is represented: what the loader does
    for a module that was imported before and has since been removed from
    [sys.modules] is outside the model. *)
Definition import_module (name : string) (st : interp) : PyObject * interp :=
  match sys_modules st !! name with
  | Some m => (m, st)
  | None =>
      match dlsym (init_symbol name) with
      | None => (NULL, set_curexc (Some (ImportError name)) st)
      | Some init =>
          match call_initfunc init st with
          | (NULL, st1) => (NULL, st1)
          | (m, st1) => (m, set_sys_modules (<[name := m]> (sys_modules st1)) st1)
          end
      end
  end.

(** ** What a module shows *)

(** A name is public when it does not begin with an underscore: the names
    [from m import *] brings in when the module defines no [__all__]. *)
Definition is_public (k : string) : bool :=
  match k with
  | String c _ => negb (Ascii.eqb c "_"%char)
  | EmptyString => true
  end.

Definition public_names (d : list (string * PyObject)) : list string :=
  filter is_public (map fst d).

Definition is_callable (st : interp) (p : PyObject) : bool :=
  match p with
  | Heap a =>
      match heap st !! a with
      | Some (PyCFunctionObject _ _) => true
      | _ => false
      end
  | _ => false
  end.

Definition callable_names (st : interp) (d : list (string * PyObject))
  : list string :=
  map fst (filter (fun e => is_callable st (snd e)) d).

(** The dictionary of the module object [m] points to. *)
Definition module_dict (m : PyObject) (st : interp)
  : option (list (string * PyObject)) :=
  match m with
  | Heap a =>
      match heap st !! a with
      | Some (PyModule _ d) => Some d
      | _ => None
      end
  | _ => None
  end.

(** ** Sample interpreter states *)

(** An interpreter right after start-up that has room for [n] objects and
    whose [None] has count [rc]. *)
Definition boot (immortal : bool) (rc : Z) (n : nat) : interp :=
  {| immortal_none := immortal; none_refcnt := rc; heap := [];
     avail := n; curexc := None; sys_modules := ∅; trace := [] |}.

(** [boot] with the integer [1], the string ["x"] and the tuples [()] and
    [(1, "x", None)] already on the heap, at addresses 0 to 3. *)
Definition boot_with_args (immortal : bool) (rc : Z) (n : nat) : interp :=
  set_heap [PyLong 1; PyUnicode "x"; PyTuple [];
            PyTuple [Heap 0; Heap 1; Py_None]] (boot immortal rc n).

(** ** The loaded module *)

(** [m] points to a module whose attribute [dummy] is a built-in function
    object entered as [dummy_function] under [METH_VARARGS]: what a loaded
    [_dummy] looks like from the outside. *)
Definition is_dummy_module (m : PyObject) (st : interp) : bool :=
  match module_dict m st with
  | Some d =>
      match dict_get "dummy" d with
      | Some (Heap f) =>
          match heap st !! f with
          | Some (PyCFunctionObject ml _) =>
              match ml_meth ml with
              | Some addr_dummy_function => ml_flags ml =? METH_VARARGS
              | None => false
              end
          | _ => false
          end
      | _ => false
      end
  | None => false
  end.

(** The state a successful run of the initialiser leaves behind, written
    out: three objects more on the heap (the name, the module, the function
    object), four more references to [None] held by the module's
    dictionary, one more API call in the trace. *)
Definition init_post (st : interp) : interp :=
  let n := length (heap st) in
  {| immortal_none := immortal_none st;
     none_refcnt :=
       if immortal_none st then none_refcnt st else none_refcnt st + 4;
     heap :=
       heap st ++
       [ PyUnicode "_dummy";
         PyModule dummymodule
           (module_init_dict (Heap n) Py_None ++ [("dummy", Heap (S (S n)))]);
         PyCFunctionObject
           {| ml_name := Some "dummy"; ml_meth := Some addr_dummy_function;
              ml_flags := METH_VARARGS; ml_doc := Some "Dummy function" |}
           (Heap (S n)) ];
     avail := avail st - 3;
     curexc := curexc st;
     sys_modules := sys_modules st;
     trace := trace st ++ [Call_PyModule_Create "_dummy"] |}.

(** The state a failed run leaves behind. *)
Definition init_failed (st : interp) : interp :=
  set_curexc (Some MemoryError) (log_call (Call_PyModule_Create "_dummy") st).

(** A run of statements [m.k( *args )], one per argument tuple: the values
    the calls produced, in order, each released before the next call, and
    how the run ended.  A call that raises ends the run. *)
Fixpoint stmt_all (m : PyObject) (k : string) (argss : list PyObject)
  (st : interp) : list PyObject * outcome :=
  match argss with
  | [] => ([], Running st)
  | args :: rest =>
      match call_method m k args st with
      | (NULL, st1) => ([NULL], Raised st1)
      | (r, st1) =>
          match Py_DECREF r st1 with
          | Running st2 =>
              let '(rs, o) := stmt_all m k rest st2 in (r :: rs, o)
          | o => ([r], o)
          end
      end
  end.

(** An older interpreter (no immortal [None], whose count stands at 3 at
    start-up) after [import _dummy]: the argument objects sit at addresses
    0 to 3, the module at 5. *)
Definition legacy_session : interp :=
  snd (import_module "_dummy" (boot_with_args false 3 8)).

Definition session_module : PyObject := Heap 5.
Definition no_args : PyObject := Heap 2.
Definition three_args : PyObject := Heap 3.

(** The session of an interpreter whose [None] is immortal, after
    [import _dummy]; the addresses are those of [legacy_session]. *)
Definition immortal_session : interp :=
  snd (import_module "_dummy" (boot_with_args true 3 8)).

(** * Properties *)

(** ** The body of [dummy_function] *)

Lemma dummy_function_frame (self args : PyObject) (st : interp) :
  dummy_function self args st = (Py_None, st).
Proof. reflexivity. Qed.

(** A call of the module's [dummy] attribute reaches [dummy_function]. *)
Lemma call_method_dummy (m args : PyObject) (st : interp) :
  is_dummy_module m st = true ->
  call_method m "dummy" args st = (Py_None, st).
Proof.
  unfold is_dummy_module, call_method, module_getattr, module_dict.
  destruct m as [| |a]; try discriminate.
  destruct (heap st !! a) as [[| | |def d|]|] eqn:Ha; try discriminate.
  destruct (dict_get "dummy" d) as [[| |f]|] eqn:Hd; try discriminate.
  unfold PyObject_CallObject.
  destruct (heap st !! f) as [[| | | |ml self]|] eqn:Hf; try discriminate.
  destruct (ml_meth ml) as [[]|]; try discriminate.
  intros ->. reflexivity.
Qed.

(** ** Allocation and module construction *)

Lemma alter_at_end {A : Type} (f : A -> A) (l1 : list A) (x : A) (l2 : list A) :
  alter f (length l1) (l1 ++ x :: l2)%list = (l1 ++ f x :: l2)%list.
Proof.
  rewrite <- (Nat.add_0_r (length l1)). rewrite alter_app_r. reflexivity.
Qed.

(** With room for three objects the initialiser succeeds, and this is the
    module it returns and the state it leaves. *)
Lemma PyInit__dummy_success (st : interp) :
  (3 <= avail st)%nat ->
  PyInit__dummy st = (Heap (S (length (heap st))), init_post st).
Proof.
  destruct st as [im rc h av ex sm tr]. simpl. intros Hav.
  destruct av as [|[|[|av]]]; try lia.
  unfold PyInit__dummy, PyModule_Create, module_create, init_post.
  destruct im; cbn -[alter Z.add]; unfold module_setattr; cbn -[alter Z.add].
  all: rewrite <- (app_assoc (h ++ [PyUnicode "_dummy"])%list).
  all: cbn -[alter Z.add]; rewrite alter_at_end.
  all: rewrite !length_app; cbn -[Z.add].
  all: rewrite <- !app_assoc; cbn -[Z.add].
  all: replace (length h + 1)%nat with (S (length h)) by lia.
  all: replace (S (length h) + 1)%nat with (S (S (length h))) by lia.
  all: replace (av - 0)%nat with av by lia.
  all: cbv [set_heap set_avail set_none_refcnt log_call immortal_none
            none_refcnt heap avail curexc sys_modules trace].
  all: do 2 f_equal; lia.
Qed.

(** With less room it fails: NULL, [MemoryError] set, nothing else moved. *)
Lemma PyInit__dummy_failure (st : interp) :
  (avail st < 3)%nat ->
  PyInit__dummy st = (NULL, init_failed st).
Proof.
  destruct st as [im rc h av ex sm tr]. simpl. intros Hav.
  destruct av as [|[|[|av]]]; try lia; destruct im; reflexivity.
Qed.

(** What the heap of [init_post] holds at the three new addresses. *)
Section InitPost.
Variable st : interp.

Lemma init_post_name :
  heap (init_post st) !! length (heap st) = Some (PyUnicode "_dummy").
Proof.
  unfold init_post. simpl. rewrite (lookup_app_r (heap st)) by lia.
  rewrite Nat.sub_diag. reflexivity.
Qed.

Lemma init_post_module :
  heap (init_post st) !! S (length (heap st)) =
  Some (PyModule dummymodule
          (module_init_dict (Heap (length (heap st))) Py_None ++
           [("dummy", Heap (S (S (length (heap st)))))])).
Proof.
  unfold init_post. simpl. rewrite (lookup_app_r (heap st)) by lia.
  replace (S (length (heap st)) - length (heap st))%nat with 1%nat by lia.
  reflexivity.
Qed.

Lemma init_post_function :
  heap (init_post st) !! S (S (length (heap st))) =
  Some (PyCFunctionObject
          {| ml_name := Some "dummy"; ml_meth := Some addr_dummy_function;
             ml_flags := METH_VARARGS; ml_doc := Some "Dummy function" |}
          (Heap (S (length (heap st))))).
Proof.
  unfold init_post. simpl. rewrite (lookup_app_r (heap st)) by lia.
  replace (S (S (length (heap st))) - length (heap st))%nat with 2%nat by lia.
  reflexivity.
Qed.

Lemma init_post_is_dummy_module :
  is_dummy_module (Heap (S (length (heap st)))) (init_post st) = true.
Proof.
  unfold is_dummy_module, module_dict.
  rewrite init_post_module. cbn [app module_init_dict dict_get String.eqb
    Ascii.eqb Bool.eqb]. rewrite init_post_function. reflexivity.
Qed.

End InitPost.

(** A run of the initialiser that returned a module was a successful one. *)
Lemma PyInit__dummy_inv (st st' : interp) (m : PyObject) :
  PyInit__dummy st = (m, st') -> m <> NULL ->
  (3 <= avail st)%nat /\ m = Heap (S (length (heap st))) /\ st' = init_post st.
Proof.
  intros Hrun Hm.
  destruct (le_lt_dec 3 (avail st)) as [Hav|Hav].
  - rewrite (PyInit__dummy_success st Hav) in Hrun.
    injection Hrun as <- <-. auto.
  - rewrite (PyInit__dummy_failure st Hav) in Hrun.
    injection Hrun as <- <-. contradiction.
Qed.

(** ** What [dummy] returns *)

(** C1. For every argument tuple [args] (the empty one, a single value,
    several values of any type; indeed for every pointer value) and in
    every interpreter state, [dummy_function] returns [Py_None], which is
    not the error value NULL, and so does a call of the loaded module's
    attribute [dummy]; the error indicator is as it was before the call. *)
Theorem dummy_returns_None (m self args : PyObject) (st : interp) :
  is_dummy_module m st = true ->
  dummy_function self args st = (Py_None, st) /\
  call_method m "dummy" args st = (Py_None, st) /\
  fst (call_method m "dummy" args st) <> NULL /\
  curexc (snd (call_method m "dummy" args st)) = curexc st.
Proof.
  intros Hm. rewrite (call_method_dummy m args st Hm). simpl.
  repeat split. discriminate.
Qed.

Lemma dummy_returns_None_witness :
  is_dummy_module session_module legacy_session = true /\
  call_method session_module "dummy" no_args legacy_session
    = (Py_None, legacy_session) /\
  call_method session_module "dummy" three_args legacy_session
    = (Py_None, legacy_session).
Proof.
  split; [reflexivity|]. split.
  - apply (dummy_returns_None session_module session_module no_args
             legacy_session). reflexivity.
  - apply (dummy_returns_None session_module session_module three_args
             legacy_session). reflexivity.
Defined.

(** ** What the initialiser builds *)

(** C2. The module object a successful initialisation returns has exactly
    one callable attribute, named [dummy], and [dummy] is the only public
    name in its dictionary. *)
Theorem module_exposes_only_dummy (st st' : interp) (m : PyObject) :
  PyInit__dummy st = (m, st') -> m <> NULL ->
  exists d : list (string * PyObject),
    module_dict m st' = Some d /\
    public_names d = ["dummy"] /\
    callable_names st' d = ["dummy"].
Proof.
  intros Hrun Hm.
  destruct (PyInit__dummy_inv st st' m Hrun Hm) as (_ & -> & ->).
  eexists. split.
  - unfold module_dict. rewrite init_post_module. reflexivity.
  - split; [reflexivity|].
    unfold callable_names, module_init_dict. simpl.
    unfold is_callable. simpl snd.
    rewrite init_post_function.
    pose proof (init_post_name st) as Hn. unfold init_post in Hn.
    simpl in Hn. rewrite Hn. reflexivity.
Qed.

Lemma module_exposes_only_dummy_witness :
  PyInit__dummy (boot false 3 8) = (Heap 1, init_post (boot false 3 8)) /\
  exists d : list (string * PyObject),
    module_dict (Heap 1) (init_post (boot false 3 8)) = Some d /\
    public_names d = ["dummy"] /\
    callable_names (init_post (boot false 3 8)) d = ["dummy"].
Proof.
  assert (Hrun : PyInit__dummy (boot false 3 8)
                 = (Heap 1, init_post (boot false 3 8)))
    by (vm_compute; reflexivity).
  split; [exact Hrun|].
  apply (module_exposes_only_dummy (boot false 3 8)
           (init_post (boot false 3 8)) (Heap 1) Hrun).
  discriminate.
Defined.

(** C5. When initialisation succeeds its result is a module object built
    from [dummymodule] whose dictionary holds, after the attributes every
    new module starts with, exactly one entry: the name [dummy], bound to a
    built-in function object that belongs to this module and is entered as
    [dummy_function]. *)
Theorem init_result_maps_dummy (st st' : interp) (m : PyObject) :
  PyInit__dummy st = (m, st') -> m <> NULL ->
  exists (a f : nat) (name : PyObject) (ml : PyMethodDef),
    m = Heap a /\
    heap st' !! a =
      Some (PyModule dummymodule
              (module_init_dict name Py_None ++ [("dummy", Heap f)])) /\
    heap st' !! f = Some (PyCFunctionObject ml m) /\
    DummyMethods !! 0%nat = Some ml /\
    ml_name ml = Some "dummy" /\
    (exists c, ml_meth ml = Some c /\ call_PyCFunction c = dummy_function).
Proof.
  intros Hrun Hm.
  destruct (PyInit__dummy_inv st st' m Hrun Hm) as (_ & -> & ->).
  eexists _, _, _, _. split; [reflexivity|].
  split; [apply init_post_module|].
  split; [apply init_post_function|].
  split; [reflexivity|]. split; [reflexivity|].
  exists addr_dummy_function. split; reflexivity.
Qed.

Lemma init_result_maps_dummy_witness :
  PyInit__dummy (boot true 3 3) = (Heap 1, init_post (boot true 3 3)) /\
  exists (a f : nat) (name : PyObject) (ml : PyMethodDef),
    Heap 1 = Heap a /\
    heap (init_post (boot true 3 3)) !! a =
      Some (PyModule dummymodule
              (module_init_dict name Py_None ++ [("dummy", Heap f)])) /\
    heap (init_post (boot true 3 3)) !! f =
      Some (PyCFunctionObject ml (Heap 1)) /\
    DummyMethods !! 0%nat = Some ml /\
    ml_name ml = Some "dummy" /\
    (exists c, ml_meth ml = Some c /\ call_PyCFunction c = dummy_function).
Proof.
  assert (Hrun : PyInit__dummy (boot true 3 3)
                 = (Heap 1, init_post (boot true 3 3)))
    by (vm_compute; reflexivity).
  split; [exact Hrun|].
  apply (init_result_maps_dummy (boot true 3 3)
           (init_post (boot true 3 3)) (Heap 1) Hrun).
  discriminate.
Defined.

(** ** How initialisation fails *)

(** C4. The initialiser is [PyModule_Create] applied to [dummymodule] and
    nothing more: it returns NULL exactly when that call returns NULL
    (which here is when the allocator cannot supply the three objects), the
    error indicator and the whole state are then the ones that call left
    ([MemoryError] as set by the host, not wrapped), the primitive was
    entered once, and neither the heap nor [sys.modules] has gained
    anything. *)
Theorem init_failure_is_create_failure (st : interp) :
  PyInit__dummy st = PyModule_Create dummymodule st /\
  (fst (PyInit__dummy st) = NULL <->
   fst (PyModule_Create dummymodule st) = NULL) /\
  (fst (PyInit__dummy st) = NULL <-> (avail st < 3)%nat) /\
  trace (snd (PyInit__dummy st)) =
    (trace st ++ [Call_PyModule_Create "_dummy"])%list /\
  sys_modules (snd (PyInit__dummy st)) = sys_modules st /\
  (fst (PyInit__dummy st) = NULL ->
   curexc (snd (PyInit__dummy st)) = Some MemoryError /\
   curexc (snd (PyInit__dummy st)) =
     curexc (snd (PyModule_Create dummymodule st)) /\
   heap (snd (PyInit__dummy st)) = heap st /\
   avail (snd (PyInit__dummy st)) = avail st /\
   none_refcnt (snd (PyInit__dummy st)) = none_refcnt st).
Proof.
  split; [reflexivity|]. split; [reflexivity|].
  destruct (le_lt_dec 3 (avail st)) as [Hav|Hav].
  - rewrite (PyInit__dummy_success st Hav). simpl.
    split; [split; [discriminate|lia]|].
    split; [reflexivity|]. split; [reflexivity|]. discriminate.
  - change (PyModule_Create dummymodule st) with (PyInit__dummy st).
    rewrite (PyInit__dummy_failure st Hav). simpl.
    split; [split; auto|]. repeat split.
Qed.

Lemma init_failure_is_create_failure_witness :
  fst (PyInit__dummy (boot false 3 2)) = NULL /\
  curexc (snd (PyInit__dummy (boot false 3 2))) = Some MemoryError /\
  heap (snd (PyInit__dummy (boot false 3 2))) = [] /\
  sys_modules (snd (PyInit__dummy (boot false 3 2))) = ∅.
Proof.
  destruct (init_failure_is_create_failure (boot false 3 2))
    as (_ & _ & Hnull & _ & Hsm & Hfail).
  assert (Hn : fst (PyInit__dummy (boot false 3 2)) = NULL)
    by (apply Hnull; simpl; lia).
  destruct (Hfail Hn) as (He & _ & Hh & _ & _).
  split; [exact Hn|]. split; [exact He|]. split; [exact Hh|exact Hsm].
Defined.

(** ** The entry point *)

(** C6. The only name the shared object exports is [PyInit__dummy]; it is
    the name the loader derives from the module name declared in
    [dummymodule], ["_dummy"], and resolving it yields the initialiser. *)
Theorem init_symbol_matches_module_name :
  exported_symbols = ["PyInit__dummy"] /\
  init_symbol (m_name dummymodule) = "PyInit__dummy" /\
  m_name dummymodule = "_dummy" /\
  dlsym (init_symbol (m_name dummymodule)) = Some addr_PyInit__dummy /\
  call_initfunc addr_PyInit__dummy = PyInit__dummy.
Proof. repeat split. Qed.

(** ** Repeated calls *)

(** Being a loaded module does not depend on the count of [None]. *)
Lemma is_dummy_module_set_none_refcnt (m : PyObject) (n : Z) (st : interp) :
  is_dummy_module m (set_none_refcnt n st) = is_dummy_module m st.
Proof. reflexivity. Qed.

Lemma call_all_dummy (m : PyObject) (argss : list PyObject) (st : interp) :
  is_dummy_module m st = true ->
  call_all m "dummy" argss st = (map (fun _ => Py_None) argss, st).
Proof.
  intros Hm. induction argss as [|args rest IH]; simpl.
  - reflexivity.
  - rewrite (call_method_dummy m args st Hm), IH. reflexivity.
Qed.

Lemma stmt_all_dummy (m : PyObject) (argss : list PyObject) :
  forall st : interp,
    is_dummy_module m st = true ->
    Forall (fun r => r = Py_None) (fst (stmt_all m "dummy" argss st)).
Proof.
  induction argss as [|args rest IH]; intros st Hm; simpl.
  - constructor.
  - rewrite (call_method_dummy m args st Hm). simpl.
    destruct (immortal_none st).
    + specialize (IH st Hm).
      destruct (stmt_all m "dummy" rest st) as [rs o]. simpl in *.
      constructor; [reflexivity|exact IH].
    + destruct (none_refcnt st - 1 =? 0).
      * simpl. constructor; [reflexivity|constructor].
      * rewrite <- (is_dummy_module_set_none_refcnt m (none_refcnt st - 1))
          in Hm.
        specialize (IH (set_none_refcnt (none_refcnt st - 1) st) Hm).
        destruct (stmt_all m "dummy" rest
                    (set_none_refcnt (none_refcnt st - 1) st)) as [rs o].
        simpl in *. constructor; [reflexivity|exact IH].
Qed.

(** C7. Every call of [dummy] succeeds with the same value whatever the
    arguments and the state: two calls with argument tuples [A] and [B]
    agree, every value in a run of calls is that value, and a call repeated
    [n + 1] times yields [n + 1] times the value of one call and returns in
    the state one call returns in.  The values are the same too when each
    result is released before the next call is made. *)
Theorem dummy_same_value_every_call (m : PyObject) (st : interp) :
  is_dummy_module m st = true ->
  (forall (self1 self2 A B : PyObject) (st1 st2 : interp),
      fst (dummy_function self1 A st1) = fst (dummy_function self2 B st2)) /\
  (forall A B : PyObject,
      fst (call_method m "dummy" A st) = fst (call_method m "dummy" B st) /\
      fst (call_method m "dummy" A st) <> NULL) /\
  (forall argss : list PyObject,
      fst (call_all m "dummy" argss st) = map (fun _ => Py_None) argss) /\
  (forall (A : PyObject) (n : nat),
      call_all m "dummy" (repeat A (S n)) st =
      (repeat (fst (call_method m "dummy" A st)) (S n),
       snd (call_method m "dummy" A st))) /\
  (forall (A : PyObject) (argss : list PyObject),
      Forall (fun r => r = fst (call_method m "dummy" A st))
             (fst (stmt_all m "dummy" argss st))).
Proof.
  intros Hm. split; [reflexivity|]. split.
  - intros A B. rewrite !(call_method_dummy m _ st Hm). simpl.
    split; [reflexivity|discriminate].
  - split.
    + intros argss. rewrite (call_all_dummy m argss st Hm). reflexivity.
    + split.
      * intros A n. rewrite (call_all_dummy m _ st Hm).
        rewrite (call_method_dummy m A st Hm). cbn [fst snd].
        f_equal. induction n as [|n IH]; [reflexivity|].
        change (repeat A (S (S n))) with (A :: repeat A (S n)).
        change (repeat Py_None (S (S n))) with (Py_None :: repeat Py_None (S n)).
        rewrite map_cons, IH. reflexivity.
      * intros A argss. rewrite (call_method_dummy m A st Hm). simpl.
        apply stmt_all_dummy. exact Hm.
Qed.

Lemma dummy_same_value_every_call_witness :
  is_dummy_module session_module legacy_session = true /\
  fst (call_method session_module "dummy" no_args legacy_session) =
  fst (call_method session_module "dummy" three_args legacy_session) /\
  call_all session_module "dummy" (repeat three_args 4) legacy_session =
  (repeat (fst (call_method session_module "dummy" three_args legacy_session)) 4,
   snd (call_method session_module "dummy" three_args legacy_session)).
Proof.
  split; [reflexivity|].
  destruct (dummy_same_value_every_call session_module legacy_session)
    as (_ & Hab & _ & Hrep & _); [reflexivity|].
  split.
  - exact (proj1 (Hab no_args three_args)).
  - exact (Hrep three_args 3%nat).
Defined.

(** ** The reference [dummy] returns *)

Lemma expr_stmt_dummy (m args : PyObject) (st : interp) :
  is_dummy_module m st = true ->
  expr_stmt m "dummy" args st = Py_DECREF Py_None st.
Proof.
  intros Hm. unfold expr_stmt. rewrite (call_method_dummy m args st Hm).
  reflexivity.
Qed.

(** Releasing [None] on an interpreter that counts it: unfold the release
    and split on whether the count has reached zero. *)
Ltac release_counted Him :=
  unfold Py_DECREF, Py_None; rewrite Him;
  match goal with
  | |- context [?c - 1 =? 0] => destruct (Z.eqb_spec (c - 1) 0)
  end.

Lemma set_none_refcnt_same (st : interp) (n : Z) :
  n = none_refcnt st -> set_none_refcnt n st = st.
Proof. intros ->. destruct st. reflexivity. Qed.

Lemma set_none_refcnt_twice (st : interp) (n k : Z) :
  set_none_refcnt n (set_none_refcnt k st) = set_none_refcnt n st.
Proof. reflexivity. Qed.

(** On an interpreter whose [None] is counted, [n] statements [dummy(..)]
    take [n] off the count, as long as the count stays above zero. *)
Lemma repeat_stmt_counted (m args : PyObject) (n : nat) :
  forall st : interp,
    is_dummy_module m st = true -> immortal_none st = false ->
    Z.of_nat n < none_refcnt st ->
    repeat_stmt n m "dummy" args st =
    Running (set_none_refcnt (none_refcnt st - Z.of_nat n) st).
Proof.
  induction n as [|n IH]; intros st Hm Him Hn.
  - simpl. rewrite set_none_refcnt_same; [reflexivity|lia].
  - cbn [repeat_stmt]. rewrite (expr_stmt_dummy m args st Hm).
    release_counted Him; [lia|].
    rewrite IH; [|exact Hm|exact Him|simpl; lia].
    rewrite set_none_refcnt_twice. simpl none_refcnt.
    f_equal. f_equal. lia.
Qed.

(** ... and the statement that takes the count to zero kills the process. *)
Lemma repeat_stmt_abort (m args : PyObject) (n : nat) :
  forall st : interp,
    is_dummy_module m st = true -> immortal_none st = false ->
    none_refcnt st = Z.of_nat (S n) ->
    repeat_stmt (S n) m "dummy" args st = Aborted "deallocating None".
Proof.
  induction n as [|n IH]; intros st Hm Him Hn.
  - cbn [repeat_stmt]. rewrite (expr_stmt_dummy m args st Hm).
    unfold Py_DECREF, Py_None. rewrite Him, Hn. reflexivity.
  - cbn [repeat_stmt]. rewrite (expr_stmt_dummy m args st Hm).
    release_counted Him; [lia|].
    apply IH; [exact Hm|exact Him|simpl; lia].
Qed.

(** Where [None] is immortal the statements leave the state as it was. *)
Lemma repeat_stmt_immortal (m args : PyObject) (n : nat) (st : interp) :
  is_dummy_module m st = true -> immortal_none st = true ->
  repeat_stmt n m "dummy" args st = Running st.
Proof.
  intros Hm Him. induction n as [|n IH]; [reflexivity|].
  cbn [repeat_stmt]. rewrite (expr_stmt_dummy m args st Hm).
  unfold Py_DECREF, Py_None. rewrite Him. exact IH.
Qed.

(** C9. [dummy_function] hands back [Py_None] with the count of [None]
    exactly as it found it, where [Py_RETURN_NONE], the form the calling
    convention prescribes, hands back the same pointer with the count one
    higher.  On an interpreter whose [None] is counted, releasing the
    result the convention-conforming way would restore the count, whereas
    each statement [dummy(..)] leaves it one lower: [n] of them take it
    down by [n]. *)
Theorem dummy_returns_borrowed_None (m self args : PyObject) (st : interp) :
  is_dummy_module m st = true -> immortal_none st = false ->
  fst (dummy_function self args st) = fst (Py_RETURN_NONE st) /\
  none_refcnt (snd (dummy_function self args st)) = none_refcnt st /\
  none_refcnt (snd (Py_RETURN_NONE st)) =
    none_refcnt (snd (dummy_function self args st)) + 1 /\
  (none_refcnt st <> 0 ->
   Py_DECREF (fst (Py_RETURN_NONE st)) (snd (Py_RETURN_NONE st)) = Running st) /\
  (none_refcnt st <> 1 ->
   expr_stmt m "dummy" args st =
   Running (set_none_refcnt (none_refcnt st - 1) st)) /\
  (forall n : nat,
      Z.of_nat n < none_refcnt st ->
      repeat_stmt n m "dummy" args st =
      Running (set_none_refcnt (none_refcnt st - Z.of_nat n) st)).
Proof.
  intros Hm Him. split; [reflexivity|]. split; [reflexivity|]. split.
  - unfold Py_RETURN_NONE, Py_INCREF, Py_None. rewrite Him. reflexivity.
  - split.
    + intros H0. unfold Py_RETURN_NONE, Py_INCREF, Py_DECREF, Py_None.
      rewrite Him. simpl. rewrite Him.
      destruct (Z.eqb_spec (none_refcnt st + 1 - 1) 0) as [H|H]; [lia|].
      rewrite set_none_refcnt_twice, set_none_refcnt_same; [reflexivity|lia].
    + split.
      * intros H1. rewrite (expr_stmt_dummy m args st Hm).
        release_counted Him; [lia|reflexivity].
      * intros n Hn. apply repeat_stmt_counted; assumption.
Qed.

Lemma dummy_returns_borrowed_None_witness :
  is_dummy_module session_module legacy_session = true /\
  immortal_none legacy_session = false /\
  none_refcnt legacy_session = 7 /\
  none_refcnt (snd (dummy_function session_module three_args legacy_session)) = 7 /\
  none_refcnt (snd (Py_RETURN_NONE legacy_session)) = 8 /\
  repeat_stmt 5 session_module "dummy" three_args legacy_session =
  Running (set_none_refcnt 2 legacy_session).
Proof.
  split; [reflexivity|]. split; [reflexivity|]. split; [reflexivity|].
  destruct (dummy_returns_borrowed_None session_module session_module
              three_args legacy_session)
    as (_ & Hkeep & Hconv & _ & _ & Hrep); [reflexivity|reflexivity|].
  split; [exact Hkeep|]. split; [exact Hconv|].
  apply (Hrep 5%nat). reflexivity.
Defined.

(** C3 fails on interpreters that count [None].  After [import _dummy]
    with the count of [None] at 7, the statement [_dummy.dummy()] leaves
    the interpreter in another state than it found it, the count being 6,
    and seven such statements end in the fatal error [deallocating None];
    so it is not the case that every such statement leaves the state as it
    was. *)
Theorem dummy_statement_changes_state :
  is_dummy_module session_module legacy_session = true /\
  none_refcnt legacy_session = 7 /\
  expr_stmt session_module "dummy" no_args legacy_session =
    Running (set_none_refcnt 6 legacy_session) /\
  set_none_refcnt 6 legacy_session <> legacy_session /\
  repeat_stmt 7 session_module "dummy" no_args legacy_session =
    Aborted "deallocating None" /\
  ~ (forall (m args : PyObject) (st : interp),
        is_dummy_module m st = true ->
        expr_stmt m "dummy" args st = Running st).
Proof.
  assert (Hm : is_dummy_module session_module legacy_session = true)
    by (vm_compute; reflexivity).
  assert (Hstep : expr_stmt session_module "dummy" no_args legacy_session =
                  Running (set_none_refcnt 6 legacy_session))
    by (vm_compute; reflexivity).
  assert (Hne : set_none_refcnt 6 legacy_session <> legacy_session).
  { intros H. apply (f_equal none_refcnt) in H. vm_compute in H.
    discriminate H. }
  split; [exact Hm|]. split; [vm_compute; reflexivity|].
  split; [exact Hstep|]. split; [exact Hne|]. split.
  - apply repeat_stmt_abort; [exact Hm|reflexivity|vm_compute; reflexivity].
  - intros Hall.
    specialize (Hall session_module no_args legacy_session Hm).
    rewrite Hstep in Hall. apply Hne. congruence.
Qed.

(** ** Repeated initialisation and the loader's cache *)

(** A loaded module stays one when the heap only grows. *)
Lemma is_dummy_module_heap_app (m : PyObject) (st st' : interp)
  (ext : list object) :
  heap st' = (heap st ++ ext)%list ->
  is_dummy_module m st = true -> is_dummy_module m st' = true.
Proof.
  intros Hh. unfold is_dummy_module, module_dict.
  destruct m as [| |a]; try discriminate.
  destruct (heap st !! a) as [o|] eqn:Ha; [|discriminate].
  rewrite Hh, (lookup_app_l_Some _ ext _ _ Ha).
  destruct o as [| | |def d|]; try discriminate.
  destruct (dict_get "dummy" d) as [[| |f]|]; try discriminate.
  destruct (heap st !! f) as [o|] eqn:Hf; [|discriminate].
  rewrite (lookup_app_l_Some _ ext _ _ Hf). trivial.
Qed.

Lemma import_dummy_first (st : interp) :
  sys_modules st !! "_dummy" = None -> (3 <= avail st)%nat ->
  import_module "_dummy" st =
  (Heap (S (length (heap st))),
   set_sys_modules (<["_dummy" := Heap (S (length (heap st)))]> (sys_modules st))
                   (init_post st)).
Proof.
  intros Hsm Hav. unfold import_module. rewrite Hsm.
  change (dlsym (init_symbol "_dummy")) with (Some addr_PyInit__dummy).
  cbn [call_initfunc]. rewrite (PyInit__dummy_success st Hav). reflexivity.
Qed.

Lemma import_cached (name : string) (m : PyObject) (st : interp) :
  sys_modules st !! name = Some m -> import_module name st = (m, st).
Proof. intros Hsm. unfold import_module. rewrite Hsm. reflexivity. Qed.

(** C10. [dummymodule] sets [m_size] to -1, and every successful run of
    [PyInit__dummy] returns an object at an address that was free before
    the run: two runs in a row return two different modules, both of them
    working [_dummy] modules.  That a second [import] yields the first
    module again is the doing of the loader, which finds the name in
    [sys.modules] and does not run the initialiser a second time. *)
Theorem each_init_builds_a_fresh_module (st st1 st2 : interp) (m1 m2 : PyObject) :
  PyInit__dummy st = (m1, st1) -> m1 <> NULL ->
  PyInit__dummy st1 = (m2, st2) -> m2 <> NULL ->
  m_size dummymodule = -1 /\
  (exists a1 a2 : nat,
      m1 = Heap a1 /\ m2 = Heap a2 /\
      heap st !! a1 = None /\ heap st1 !! a2 = None /\ a1 <> a2) /\
  m1 <> m2 /\
  is_dummy_module m1 st2 = true /\ is_dummy_module m2 st2 = true /\
  (sys_modules st !! "_dummy" = None ->
   exists st3 : interp,
     import_module "_dummy" st = (m1, st3) /\
     import_module "_dummy" st3 = (m1, st3) /\
     trace st3 = (trace st ++ [Call_PyModule_Create "_dummy"])%list).
Proof.
  intros H1 Hm1 H2 Hm2.
  destruct (PyInit__dummy_inv st st1 m1 H1 Hm1) as (Hav1 & -> & ->).
  destruct (PyInit__dummy_inv _ st2 m2 H2 Hm2) as (Hav2 & -> & ->).
  assert (Hlen : length (heap (init_post st)) = (length (heap st) + 3)%nat).
  { unfold init_post. simpl. rewrite length_app. reflexivity. }
  split; [reflexivity|]. split.
  - exists (S (length (heap st))), (S (length (heap (init_post st)))).
    split; [reflexivity|]. split; [reflexivity|].
    split; [apply lookup_ge_None; lia|].
    split; [apply lookup_ge_None; lia|lia].
  - split; [intros H; assert (Heq : S (length (heap st)) =
                  S (length (heap (init_post st)))) by congruence; lia|].
    split.
    + eapply (is_dummy_module_heap_app _ (init_post st));
        [reflexivity|apply init_post_is_dummy_module].
    + split; [apply init_post_is_dummy_module|].
      intros Hsm. eexists. split; [apply import_dummy_first; assumption|].
      split; [|reflexivity].
      apply import_cached. simpl. apply lookup_insert_eq.
Qed.

Lemma each_init_builds_a_fresh_module_witness :
  PyInit__dummy (boot false 3 8) = (Heap 1, init_post (boot false 3 8)) /\
  PyInit__dummy (init_post (boot false 3 8)) =
    (Heap 4, init_post (init_post (boot false 3 8))) /\
  Heap 1 <> Heap 4 /\
  exists st3 : interp,
    import_module "_dummy" (boot false 3 8) = (Heap 1, st3) /\
    import_module "_dummy" st3 = (Heap 1, st3).
Proof.
  assert (Hrun1 : PyInit__dummy (boot false 3 8)
                  = (Heap 1, init_post (boot false 3 8)))
    by (vm_compute; reflexivity).
  assert (Hrun2 : PyInit__dummy (init_post (boot false 3 8))
                  = (Heap 4, init_post (init_post (boot false 3 8))))
    by (vm_compute; reflexivity).
  split; [exact Hrun1|]. split; [exact Hrun2|].
  destruct (each_init_builds_a_fresh_module (boot false 3 8)
              (init_post (boot false 3 8))
              (init_post (init_post (boot false 3 8)))
              (Heap 1) (Heap 4) Hrun1)
    as (_ & _ & Hne & _ & _ & Himp);
    [discriminate|exact Hrun2|discriminate|].
  split; [exact Hne|].
  destruct Himp as (st3 & Ha & Hb & _); [vm_compute; reflexivity|].
  exists st3. split; assumption.
Defined.

(** * Further properties of the module *)

(** ** Runs of statements *)

(** One statement of a run: the call returns [Py_None] in the state it
    started in, and that reference is then released. *)
Lemma stmt_all_dummy_cons (m args : PyObject) (rest : list PyObject)
  (st : interp) :
  is_dummy_module m st = true ->
  stmt_all m "dummy" (args :: rest) st =
  match Py_DECREF Py_None st with
  | Running st2 =>
      let '(rs, o) := stmt_all m "dummy" rest st2 in (Py_None :: rs, o)
  | o => ([Py_None], o)
  end.
Proof.
  intros Hm. cbn [stmt_all]. rewrite (call_method_dummy m args st Hm).
  reflexivity.
Qed.

(** X1. Where [None] is immortal, a run of statements [dummy(..)] over any
    argument tuples yields [None] every time and ends with the interpreter
    in exactly the state the run started in. *)
Theorem dummy_statements_immortal (m : PyObject) (argss : list PyObject)
  (st : interp) :
  is_dummy_module m st = true -> immortal_none st = true ->
  stmt_all m "dummy" argss st =
  (map (fun _ => Py_None) argss, Running st).
Proof.
  intros Hm Him. induction argss as [|args rest IH]; [reflexivity|].
  rewrite (stmt_all_dummy_cons m args rest st Hm).
  unfold Py_DECREF, Py_None. rewrite Him, IH. reflexivity.
Qed.

Lemma dummy_statements_immortal_witness :
  is_dummy_module session_module immortal_session = true /\
  immortal_none immortal_session = true /\
  stmt_all session_module "dummy" [no_args; three_args; no_args]
           immortal_session =
  ([Py_None; Py_None; Py_None], Running immortal_session).
Proof.
  assert (Hm : is_dummy_module session_module immortal_session = true)
    by (vm_compute; reflexivity).
  assert (Him : immortal_none immortal_session = true)
    by (vm_compute; reflexivity).
  split; [exact Hm|]. split; [exact Him|].
  exact (dummy_statements_immortal session_module
           [no_args; three_args; no_args] immortal_session Hm Him).
Defined.

(** Splits on the two tests of the guard [0 < c <= k]. *)
Ltac split_guard :=
  match goal with
  | |- context [(0 <? ?c) && (?c <=? ?k)] =>
      destruct (Z.ltb_spec 0 c); destruct (Z.leb_spec c k); cbn [andb]
  end.

(** X2. Where [None] is counted and its count is [c], a run of [k]
    statements [dummy(..)] goes through when [c] is not positive or [k < c],
    and then leaves the count at [c - k] and nothing else changed;
    otherwise the process is killed by the [c]-th statement, after exactly
    [c] calls have returned [None]. *)
Theorem dummy_statements_counted (m : PyObject) (argss : list PyObject)
  (st : interp) :
  is_dummy_module m st = true -> immortal_none st = false ->
  stmt_all m "dummy" argss st =
  if (0 <? none_refcnt st) && (none_refcnt st <=? Z.of_nat (length argss))
  then (repeat Py_None (Z.to_nat (none_refcnt st)), Aborted "deallocating None")
  else (repeat Py_None (length argss),
        Running (set_none_refcnt (none_refcnt st - Z.of_nat (length argss)) st)).
Proof.
  revert st. induction argss as [|args rest IH]; intros st Hm Him.
  - cbn [stmt_all length repeat]. split_guard; try (exfalso; lia).
    all: rewrite set_none_refcnt_same; [reflexivity|lia].
  - rewrite (stmt_all_dummy_cons m args rest st Hm).
    release_counted Him.
    + split_guard; try (exfalso; cbn [length] in *; lia).
      replace (none_refcnt st) with 1 by lia. reflexivity.
    + rewrite (IH (set_none_refcnt (none_refcnt st - 1) st) Hm Him).
      cbn [none_refcnt set_none_refcnt length].
      do 2 split_guard; try (exfalso; lia).
      * replace (Z.to_nat (none_refcnt st))
          with (S (Z.to_nat (none_refcnt st - 1))) by lia.
        reflexivity.
      * rewrite set_none_refcnt_twice. cbn [repeat]. do 3 f_equal. lia.
      * rewrite set_none_refcnt_twice. cbn [repeat]. do 3 f_equal. lia.
Qed.

Lemma dummy_statements_counted_witness :
  is_dummy_module session_module legacy_session = true /\
  immortal_none legacy_session = false /\
  stmt_all session_module "dummy" [no_args; three_args; no_args]
           legacy_session =
  ([Py_None; Py_None; Py_None], Running (set_none_refcnt 4 legacy_session)) /\
  stmt_all session_module "dummy" (repeat no_args 9) legacy_session =
  (repeat Py_None 7, Aborted "deallocating None").
Proof.
  assert (Hm : is_dummy_module session_module legacy_session = true)
    by (vm_compute; reflexivity).
  assert (Him : immortal_none legacy_session = false)
    by (vm_compute; reflexivity).
  split; [exact Hm|]. split; [exact Him|]. split.
  - rewrite (dummy_statements_counted session_module
               [no_args; three_args; no_args] legacy_session Hm Him).
    reflexivity.
  - rewrite (dummy_statements_counted session_module
               (repeat no_args 9) legacy_session Hm Him).
    reflexivity.
Defined.

(** X3. On every build, a run of statements [dummy(..)] never ends with an
    exception.  If it goes through, the final state differs from the
    initial one in the count of [None] at most (heap, allocator, error
    indicator, [sys.modules] and trace are the initial ones) and the module
    is still the loaded module; if the process is killed, the build is one
    that counts [None]. *)
Theorem dummy_statements_frame (m : PyObject) (argss : list PyObject)
  (st : interp) :
  is_dummy_module m st = true ->
  match snd (stmt_all m "dummy" argss st) with
  | Running st' =>
      st' = set_none_refcnt (none_refcnt st') st /\
      is_dummy_module m st' = true
  | Raised _ => False
  | Aborted _ => immortal_none st = false
  end.
Proof.
  revert st. induction argss as [|args rest IH]; intros st Hm.
  - cbn [stmt_all snd]. split; [|exact Hm].
    symmetry. apply set_none_refcnt_same. reflexivity.
  - rewrite (stmt_all_dummy_cons m args rest st Hm).
    unfold Py_DECREF, Py_None.
    destruct (immortal_none st) eqn:Him.
    + specialize (IH st Hm). rewrite Him in IH.
      destruct (stmt_all m "dummy" rest st) as [rs o]. exact IH.
    + destruct (none_refcnt st - 1 =? 0); [reflexivity|].
      specialize (IH (set_none_refcnt (none_refcnt st - 1) st) Hm).
      destruct (stmt_all m "dummy" rest
                  (set_none_refcnt (none_refcnt st - 1) st)) as [rs o].
      cbn [snd] in *. destruct o as [st'| |msg]; [|exact IH|reflexivity].
      destruct IH as [Heq Hm']. split; [|exact Hm'].
      rewrite Heq at 1. apply set_none_refcnt_twice.
Qed.

Lemma dummy_statements_frame_witness :
  is_dummy_module session_module legacy_session = true /\
  match snd (stmt_all session_module "dummy" [no_args; three_args]
                      legacy_session) with
  | Running st' =>
      st' = set_none_refcnt (none_refcnt st') legacy_session /\
      is_dummy_module session_module st' = true
  | Raised _ => False
  | Aborted _ => immortal_none legacy_session = false
  end.
Proof.
  assert (Hm : is_dummy_module session_module legacy_session = true)
    by (vm_compute; reflexivity).
  split; [exact Hm|].
  exact (dummy_statements_frame session_module [no_args; three_args]
           legacy_session Hm).
Defined.

(** ** The method table *)

(** X4. The scan of [DummyMethods] ends at the entry whose name is NULL:
    whatever lies behind the array is never looked at.  The scan fails
    exactly when the allocator has nothing left, and when it succeeds it
    has put one object on the heap. *)
Theorem method_table_scan_stops_at_sentinel (junk : list PyMethodDef)
  (m : nat) (st : interp) :
  add_methods m (DummyMethods ++ junk) st = add_methods m DummyMethods st /\
  (add_methods m DummyMethods st = None <-> avail st = O) /\
  (forall st' : interp,
      add_methods m DummyMethods st = Some st' ->
      length (heap st') = S (length (heap st)) /\
      avail st = S (avail st')).
Proof.
  unfold DummyMethods. cbn [app add_methods ml_name]. unfold alloc.
  destruct (avail st) as [|k] eqn:Hav.
  - split; [reflexivity|]. split; [split; reflexivity|]. discriminate.
  - split; [reflexivity|]. split; [split; discriminate|].
    intros st' Hst. injection Hst as <-. split; [|reflexivity].
    unfold module_setattr. cbn [heap set_heap set_avail].
    rewrite length_alter, length_app. cbn [length]. lia.
Qed.

(** ** Attributes of the module *)







(** ** The loader and the entry point *)




(** X8. The first [import _dummy] in an interpreter: with room for three
    objects it returns a module, enters it in [sys.modules] and that module
    answers [dummy(..)] with [None]; with less room it returns NULL with
    [MemoryError] set, the heap is as before and [sys.modules] still has no
    entry for the name, so that a later import runs the initialiser
    afresh. *)
Theorem first_import_outcome (st : interp) (args : PyObject) :
  sys_modules st !! "_dummy" = None ->
  ((3 <= avail st)%nat ->
   exists (m : PyObject) (st1 : interp),
     import_module "_dummy" st = (m, st1) /\ m <> NULL /\
     sys_modules st1 !! "_dummy" = Some m /\
     call_method m "dummy" args st1 = (Py_None, st1)) /\
  ((avail st < 3)%nat ->
   import_module "_dummy" st = (NULL, init_failed st) /\
   curexc (init_failed st) = Some MemoryError /\
   heap (init_failed st) = heap st /\
   sys_modules (init_failed st) !! "_dummy" = None).
Proof.
  intros Hsm. split; intros Hav.
  - eexists _, _. split; [apply import_dummy_first; assumption|].
    split; [discriminate|]. split; [apply lookup_insert_eq|].
    apply call_method_dummy.
    exact (init_post_is_dummy_module st).
  - split; [|split; [reflexivity|split; [reflexivity|exact Hsm]]].
    unfold import_module. rewrite Hsm.
    change (dlsym (init_symbol "_dummy")) with (Some addr_PyInit__dummy).
    cbn [call_initfunc]. rewrite (PyInit__dummy_failure st Hav). reflexivity.
Qed.

Lemma first_import_outcome_witness :
  sys_modules (boot false 3 2) !! "_dummy" = None /\
  import_module "_dummy" (boot false 3 2) = (NULL, init_failed (boot false 3 2)) /\
  exists (m : PyObject) (st1 : interp),
    import_module "_dummy" (boot_with_args false 3 8) = (m, st1) /\
    m <> NULL /\
    call_method m "dummy" three_args st1 = (Py_None, st1).
Proof.
  split; [vm_compute; reflexivity|]. split.
  - destruct (first_import_outcome (boot false 3 2) NULL) as [_ Hfail];
      [vm_compute; reflexivity|].
    apply Hfail. simpl. lia.
  - destruct (first_import_outcome (boot_with_args false 3 8) three_args)
      as [Hok _]; [vm_compute; reflexivity|].
    destruct Hok as (m & st1 & Hi & Hn & _ & Hc); [simpl; lia|].
    exists m, st1. auto.
Defined.
